(** * tap-coosto: the Coosto API client ([tap_coosto/coosto.py])

    A shallow embedding of the [Coosto] class: the session login, the
    rate-limit discovery, the day enumeration and the [intervention_details]
    generator, together with the properties of the extraction client.

    Conventions of the embedding.
    - Python values that come from JSON are terms of [json]; Python's [None]
      and JSON's [null] are the same term [JNull].
    - Exceptions are terms of [exn]; a computation that can raise returns a
      [result].  Stateful code is a function from the object and the world to
      a result and the new object and world: an exception keeps the
      mutations made before it, as in Python.
    - Wall-clock time is a rational number of seconds ([Q]); the quotient
      [60 / max_requests] and the [timedelta] built from it are computed in
      exact rational arithmetic.
    - Strings are byte strings; the text functions are those of ASCII text. *)

From Stdlib Require Import ZArith QArith Lqa Lia Bool List Ascii String.
From Stdlib Require Import DecimalString DecimalPos.
From stdpp Require Import gmap strings.

Import ListNotations.
Set Warnings "-register-all".
Local Open Scope string_scope.
Local Open Scope Z_scope.

(** ** Exceptions and results *)

(** Why a [ValueError] was raised. *)
Inductive value_error :=
| StartDateRequired      (* 'The parameter start_date is required.' *)
| InvalidIntLiteral      (* int() on a string that is no integer literal *)
| DateOutOfRange.        (* date(): year, month or day out of range *)

Inductive exn :=
| ValueError (why : value_error)
| IndexError             (* list index out of range *)
| AttributeError         (* attribute missing on the receiver *)
| TypeError              (* operand of the wrong type, not callable, not iterable *)
| ZeroDivisionError
| OverflowError          (* Python int too large for a C int *)
| JSONDecodeError        (* response.json() on a body that is no JSON *)
| HTTPStatusError        (* response.raise_for_status() *)
| TransportError.        (* httpx could not obtain a response *)

Inductive result (A : Type) :=
| Ok (a : A)
| Raise (e : exn).
Arguments Ok {A} a.
Arguments Raise {A} e.

Definition bind {A B} (r : result A) (k : A -> result B) : result B :=
  match r with
  | Ok a => k a
  | Raise e => Raise e
  end.

Declare Scope result_scope.
Delimit Scope result_scope with result.
Notation "'do' x <- r ; k" := (bind r (fun x => k))
  (at level 10, x name, r at level 100, k at level 200) : result_scope.
Local Open Scope result_scope.

(** ** JSON values *)

Inductive json :=
| JNull
| JBool (b : bool)
| JInt (n : Z)
| JStr (s : string)
| JArr (items : list json)
| JObj (fields : list (string * json)).

(** [dict.get(key, default)] on a decoded object. *)
Fixpoint assoc_get {V} (fields : list (string * V)) (key : string) : option V :=
  match fields with
  | [] => None
  | (k, v) :: rest => if String.eqb k key then Some v else assoc_get rest key
  end.

(** [value.get(key, default)]: only a dict has the method. *)
Definition py_get (value : json) (key : string) (default : json) : result json :=
  match value with
  | JObj fields =>
      match assoc_get fields key with
      | Some v => Ok v
      | None => Ok default
      end
  | _ => Raise AttributeError
  end.

(** Truth value of a decoded JSON value. *)
Definition py_truthy (value : json) : bool :=
  match value with
  | JNull => false
  | JBool b => b
  | JInt n => negb (n =? 0)
  | JStr s => negb (String.eqb s "")
  | JArr items => match items with [] => false | _ => true end
  | JObj fields => match fields with [] => false | _ => true end
  end.

(** Keys of a dict in insertion order, each once. *)
Fixpoint dict_keys (fields : list (string * json)) (seen : list string) : list string :=
  match fields with
  | [] => []
  | (k, _) :: rest =>
      if existsb (String.eqb k) seen then dict_keys rest seen
      else k :: dict_keys rest (k :: seen)
  end.

Fixpoint chars (s : string) : list string :=
  match s with
  | EmptyString => []
  | String c s' => String c EmptyString :: chars s'
  end.

(** [iter(value)]: the items a [for] loop sees. *)
Definition py_iter (value : json) : result (list json) :=
  match value with
  | JArr items => Ok items
  | JObj fields => Ok (map JStr (dict_keys fields []))
  | JStr s => Ok (map JStr (chars s))
  | _ => Raise TypeError
  end.

(** ** Text *)

Definition is_digit (c : ascii) : bool :=
  let n := nat_of_ascii c in (48 <=? n)%nat && (n <=? 57)%nat.

(** Whitespace of [str.lstrip()]: tab to carriage return, the four
    separators 0x1c to 0x1f, and the space. *)
Definition is_space (c : ascii) : bool :=
  let n := nat_of_ascii c in
  ((9 <=? n)%nat && (n <=? 13)%nat) || ((28 <=? n)%nat && (n <=? 32)%nat).

(** Whitespace that [int()] skips around an ASCII literal. *)
Definition is_c_space (c : ascii) : bool :=
  let n := nat_of_ascii c in
  ((9 <=? n)%nat && (n <=? 13)%nat) || (n =? 32)%nat.

Fixpoint lstrip_with (sp : ascii -> bool) (s : string) : string :=
  match s with
  | EmptyString => EmptyString
  | String c s' => if sp c then lstrip_with sp s' else s
  end.

Fixpoint rstrip_with (sp : ascii -> bool) (s : string) : string :=
  match s with
  | EmptyString => EmptyString
  | String c s' =>
      let r := rstrip_with sp s' in
      if sp c && String.eqb r "" then "" else String c r
  end.

(** [s.lstrip()] *)
Definition lstrip (s : string) : string := lstrip_with is_space s.

(** [s.split(sep)] for a one-character separator: the result is never
    empty. *)
Fixpoint split (sep : ascii) (s : string) : list string :=
  match s with
  | EmptyString => [""]
  | String c s' =>
      if Ascii.eqb c sep then "" :: split sep s'
      else
        match split sep s' with
        | [] => [String c ""]
        | w :: ws => String c w :: ws
        end
  end.

(** [xs[i]] *)
Definition index {A} (xs : list A) (i : nat) : result A :=
  match nth_error xs i with
  | Some x => Ok x
  | None => Raise IndexError
  end.

(** The digits of a decimal literal: a digit, then digits with single
    underscores between them. *)
Fixpoint literal_digits (after_digit : bool) (s : string) : option string :=
  match s with
  | EmptyString => if after_digit then Some "" else None
  | String c s' =>
      if is_digit c then option_map (String c) (literal_digits true s')
      else if Ascii.eqb c "_" && after_digit then literal_digits false s'
      else None
  end.

Definition digits_value (s : string) : option Z :=
  match literal_digits false s with
  | Some ds => option_map Z.of_uint (NilEmpty.uint_of_string ds)
  | None => None
  end.

(** [int(s)] in base ten. *)
Definition py_int (s : string) : result Z :=
  let body := rstrip_with is_c_space (lstrip_with is_c_space s) in
  let signed :=
    match body with
    | String "-" rest => option_map Z.opp (digits_value rest)
    | String "+" rest => digits_value rest
    | _ => digits_value body
    end in
  match signed with
  | Some n => Ok n
  | None => Raise (ValueError InvalidIntLiteral)
  end.

(** [str(n)] *)
Definition py_str (n : Z) : string := NilZero.string_of_int (Z.to_int n).

(** [s.replace(old, new)] for a non-empty [old]: [skip] counts the
    characters of a match that are still to be dropped. *)
Fixpoint replace_from (old new s : string) (skip : nat) : string :=
  match s with
  | EmptyString => EmptyString
  | String c s' =>
      match skip with
      | S k => replace_from old new s' k
      | O =>
          if String.prefix old s
          then new ++ replace_from old new s' (String.length old - 1)
          else String c (replace_from old new s' 0)
      end
  end.

Definition replace (s old new : string) : string := replace_from old new s 0.

(** ** Calendar ([datetime], [dateutil.rrule])

    A [date] is its proleptic Gregorian ordinal ([date.toordinal()]); a naive
    [datetime] is the number of whole seconds between 1970-01-01T00:00:00 and
    it on the naive calendar. *)

Definition MINYEAR : Z := 1.
Definition MAXYEAR : Z := 9999.

Definition is_leap (year : Z) : bool :=
  (year mod 4 =? 0) && (negb (year mod 100 =? 0) || (year mod 400 =? 0)).

Definition days_before_year (year : Z) : Z :=
  let y := year - 1 in
  y * 365 + y / 4 - y / 100 + y / 400.

Definition days_in_month (year month : Z) : Z :=
  if (month =? 2) && is_leap year then 29
  else nth (Z.to_nat month) [-1; 31; 28; 31; 30; 31; 30; 31; 31; 30; 31; 30; 31] 0.

Definition days_before_month (year month : Z) : Z :=
  nth (Z.to_nat month) [-1; 0; 31; 59; 90; 120; 151; 181; 212; 243; 273; 304; 334] 0
  + (if (2 <? month) && is_leap year then 1 else 0).

Definition ymd2ord (year month day : Z) : Z :=
  days_before_year year + days_before_month year month + day.

Definition fits_c_int (n : Z) : bool := (- 2 ^ 31 <=? n) && (n <? 2 ^ 31).

(** [date(year, month, day)] *)
Definition date (year month day : Z) : result Z :=
  if negb (fits_c_int year && fits_c_int month && fits_c_int day)
  then Raise OverflowError
  else if negb ((MINYEAR <=? year) && (year <=? MAXYEAR))
  then Raise (ValueError DateOutOfRange)
  else if negb ((1 <=? month) && (month <=? 12))
  then Raise (ValueError DateOutOfRange)
  else if negb ((1 <=? day) && (day <=? days_in_month year month))
  then Raise (ValueError DateOutOfRange)
  else Ok (ymd2ord year month day).

(** Ordinal of 1970-01-01. *)
Definition EPOCH_ORDINAL : Z := 719163.

(** Midnight of a date as a naive datetime. *)
Definition midnight (ordinal : Z) : Z := (ordinal - EPOCH_ORDINAL) * 86400.

(** The last midnight a datetime can hold, 9999-12-31T00:00:00. *)
Definition MAX_MIDNIGHT : Z := midnight (ymd2ord MAXYEAR 12 31).

(** [rrule(freq=DAILY, dtstart=period, until=until)]: the midnights
    [period], [period + 1 day], ... that are not after [until]. *)
Definition rrule_daily (period : Z) (until : Z) : list Z :=
  let first := midnight period in
  let last := Z.min until MAX_MIDNIGHT in
  if first <=? last
  then map (fun k => first + 86400 * Z.of_nat k)
           (seq 0 (Z.to_nat ((last - first) / 86400 + 1)))
  else [].

(** ** The world outside the process *)

Inductive http_method := GET | POST.

Record request := {
  method : http_method;
  url : string;
  form : list (string * string);       (* data= *)
  sent_cookies : list (string * json)  (* cookies= *)
}.

Record response := {
  status_code : Z;
  body : option json                   (* [None]: the body is no JSON *)
}.

(** What the network does with a request: how long it takes, and the
    response, if one arrives. *)
Record reply := {
  latency : Q;
  answer : option response
}.

(** A value in the cleaner registry or the default of its lookup. *)
Inductive pyobj :=
| PyFunc (f : json -> result json)
| PyValue (v : json).

Record Env := {
  (** the reply to the n-th request of the run *)
  server : nat -> request -> reply;
  (** [datetime.utcnow()], in whole seconds, when the wall clock shows the
      given time *)
  utcnow : Q -> Z;
  (** [strftime('%s')] of a naive datetime: the epoch second at which the
      local clock shows it *)
  mktime : Z -> Z;
  (** [tap_coosto.cleaners.CLEANERS] *)
  CLEANERS : gmap string pyobj
}.

(** The wall clock ([datetime.now()], in seconds) and the requests issued so
    far, oldest first, each with the time it was issued at. *)
Record World := {
  clock : Q;
  sent : list (Q * request)
}.

(** [httpx.post], [httpx.get] and [client.get] *)
Definition http (env : Env) (r : request) (w : World) : result response * World :=
  let rp := server env (List.length (sent w)) r in
  (match answer rp with
   | Some resp => Ok resp
   | None => Raise TransportError
   end,
   {| clock := clock w + latency rp; sent := sent w ++ [(clock w, r)] |}).

(** [response.raise_for_status()]: raises unless the status is 2xx. *)
Definition raise_for_status (resp : response) : result unit :=
  if (200 <=? status_code resp) && (status_code resp <=? 299)
  then Ok tt
  else Raise HTTPStatusError.

(** [response.json()] *)
Definition response_json (resp : response) : result json :=
  match body resp with
  | Some j => Ok j
  | None => Raise JSONDecodeError
  end.

(** [pause.until(t)]: returns once the clock has reached [t]. *)
Definition pause_until (t : Q) (w : World) : World :=
  {| clock := if Qle_bool t (clock w) then clock w else t; sent := sent w |}.

(** ** The [Coosto] object *)

Record Coosto := {
  username : string;
  password : string;
  cookies : list (string * json);
  (** [None]: the attribute has not been set on the object *)
  max_requests : option json;
  (** [None]: Python's [None] *)
  next_request : option Q
}.

Definition set_cookies (self : Coosto) (c : list (string * json)) : Coosto :=
  {| username := username self; password := password self; cookies := c;
     max_requests := max_requests self; next_request := next_request self |}.

Definition set_max_requests (self : Coosto) (m : json) : Coosto :=
  {| username := username self; password := password self; cookies := cookies self;
     max_requests := Some m; next_request := next_request self |}.

Definition set_next_request (self : Coosto) (t : option Q) : Coosto :=
  {| username := username self; password := password self; cookies := cookies self;
     max_requests := max_requests self; next_request := t |}.

(** A method body: it reads and mutates the object and the world, and
    returns or raises.  What was mutated before a raise stays mutated. *)
Definition prog (A : Type) : Type := Coosto -> World -> result A * Coosto * World.

Definition ret {A} (a : A) : prog A := fun self w => (Ok a, self, w).

Definition lift {A} (r : result A) : prog A := fun self w => (r, self, w).

Definition and_then {A B} (p : prog A) (k : A -> prog B) : prog B :=
  fun self w =>
    match p self w with
    | (Ok a, self', w') => k a self' w'
    | (Raise e, self', w') => (Raise e, self', w')
    end.

Notation "'run' x <- p ; k" := (and_then p (fun x => k))
  (at level 10, x name, p at level 100, k at level 200) : result_scope.

(** Issue a request from inside a method. *)
Definition send (env : Env) (r : request) : prog response :=
  fun self w => let (resp, w') := http env r w in (resp, self, w').

Definition BASE_URL : string := "https://in.coosto.com".
Definition ENDPOINT_LOGIN : string := "/api/1/users/login".
Definition ENDPOINT_RATE_LIMIT : string := "/api/1/users/rate_limit_status".
Definition ENDPOINT_DATE : string := "/?since=:start_date:&until=:end_date:".
Definition ENDPOINT_INTERVENTION : string :=
  "/api/1/engagementstats/get_intervention_details".

(** The request of [_login]. *)
Definition login_request (self : Coosto) : request :=
  {| method := POST;
     url := BASE_URL ++ ENDPOINT_LOGIN;
     form := [("username", username self); ("password", password self)];
     sent_cookies := [] |}.

(** The request of [rate_limit]. *)
Definition rate_limit_request (self : Coosto) : request :=
  {| method := GET;
     url := BASE_URL ++ ENDPOINT_RATE_LIMIT;
     form := [];
     sent_cookies := cookies self |}.

(** The window of one day: [int(date_day)] and [end_of_day]. *)
Definition day_window (date_day : string) : result (Z * Z) :=
  do start_of_day <- py_int date_day;
  Ok (start_of_day, start_of_day + 86400).

(** The request path of one day. *)
Definition day_url (date_day : string) (end_of_day : Z) : string :=
  BASE_URL ++ ENDPOINT_INTERVENTION
  ++ replace (replace ENDPOINT_DATE ":start_date:" date_day)
             ":end_date:" (py_str end_of_day).

(** The request of one day of [intervention_details]. *)
Definition day_request (self : Coosto) (date_day : string) (end_of_day : Z) : request :=
  {| method := GET;
     url := day_url date_day end_of_day;
     form := [];
     sent_cookies := cookies self |}.

(** The start period of [_start_days_till_now]: the three parts of the
    text as a date. *)
Definition start_period (start_date : string) : result Z :=
  do year <- (do part <- index (split "-" start_date) 0; py_int part);
  do month <- (do part <- index (split "-" start_date) 1; py_int (lstrip part));
  do day <- (do part <- index (split "-" start_date) 2; py_int (lstrip part));
  date year month day.

Section Client.

Variable env : Env.

(** [Coosto._login] *)
Definition _login : prog unit :=
  fun self w =>
    (run response <- send env (login_request self);
     run _ <- lift (raise_for_status response);
     run response_data <- lift (do decoded <- response_json response;
                                py_get decoded "data" (JObj []));
     run sessionid <- lift (py_get response_data "sessionid" JNull);
     fun self' w' => (Ok tt, set_cookies self' [("sessionid", sessionid)], w'))
    self w.

(** [Coosto.rate_limit] *)
Definition rate_limit : prog json :=
  fun self w =>
    (run response <- send env (rate_limit_request self);
     run _ <- lift (raise_for_status response);
     lift (do decoded <- response_json response;
           py_get decoded "data" JNull))
    self w.

(** [Coosto.set_rate_limit] *)
Definition set_rate_limit : prog unit :=
  run rate_dict <- rate_limit;
  run enabled <- lift (py_get rate_dict "enabled" JNull);
  if negb (py_truthy enabled) then ret tt
  else
    run limit <- lift (py_get rate_dict "max_requests" JNull);
    fun self w => (Ok tt, set_max_requests self limit, w).

(** [Coosto.__init__]: the object exists only if no step raised. *)
Definition __init__ (user pass : string) (w : World) : result Coosto * World :=
  let blank := {| username := user; password := pass; cookies := [];
                  max_requests := None; next_request := None |} in
  match (run _ <- _login;
         run _ <- set_rate_limit;
         fun self w' => (Ok tt, set_next_request self None, w')) blank w with
  | (Ok _, self, w') => (Ok self, w')
  | (Raise e, _, w') => (Raise e, w')
  end.

(** [Coosto._start_days_till_now]: the epoch second of every day's midnight,
    printed in decimal. *)
Definition _start_days_till_now (start_date : string) (w : World) : result (list string) :=
  do period <- start_period start_date;
  Ok (map (fun date_day => py_str (mktime env date_day))
          (rrule_daily period (utcnow env (clock w)))).

(** [60 / self.max_requests] *)
Definition sixty_over (limit : json) : result Q :=
  match limit with
  | JInt n => if n =? 0 then Raise ZeroDivisionError else Ok (60 / inject_Z n)%Q
  | JBool b => if b then Ok (60 / 1)%Q else Raise ZeroDivisionError
  | _ => Raise TypeError
  end.

(** [self.max_requests] *)
Definition get_max_requests : prog json :=
  fun self w =>
    match max_requests self with
    | Some limit => (Ok limit, self, w)
    | None => (Raise AttributeError, self, w)
    end.

(** The body of the day loop of [Coosto.intervention_details], up to the
    rows that the generator expression iterates over. *)
Definition fetch_day (date_day : string) : prog (list json) :=
  run window <- lift (day_window date_day);
  let end_of_day := snd window in
  run _ <- (fun self w =>
              match next_request self with
              | Some t => (Ok tt, self, pause_until t w)
              | None => (Ok tt, self, w)
              end);
  run response <- (fun self w =>
                     send env (day_request self date_day end_of_day) self w);
  run limit <- get_max_requests;
  run sleep_between_requests <- lift (sixty_over limit);
  run _ <- (fun self w =>
              (Ok tt, set_next_request self (Some (clock w + sleep_between_requests)%Q), w));
  run _ <- lift (raise_for_status response);
  run response_data <- lift (response_json response);
  run data <- lift (py_get response_data "data" JNull);
  lift (py_iter data).

(** [cleaner(row)] *)
Definition call (cleaner : pyobj) (row : json) : result json :=
  match cleaner with
  | PyFunc f => f row
  | PyValue _ => Raise TypeError
  end.

(** A keyword argument. *)
Inductive pyarg :=
| ArgStr (s : string)
| ArgNone
| ArgBool (b : bool)
| ArgInt (n : Z).

(** [str(value)] *)
Definition str_of_arg (value : pyarg) : string :=
  match value with
  | ArgStr s => s
  | ArgNone => "None"
  | ArgBool b => if b then "True" else "False"
  | ArgInt n => py_str n
  end.

(** The generator object that [intervention_details] returns. *)
Inductive generator :=
| Created (kwargs : list (string * pyarg))       (* the body has not started *)
| Suspended (cleaner : pyobj) (rows : list json) (days : list string)
                                                 (* waiting at the [yield] *)
| Exhausted.                                     (* returned or raised *)

(** [Coosto.intervention_details]: calling a generator function only
    builds the generator. *)
Definition intervention_details (kwargs : list (string * pyarg)) : prog generator :=
  ret (Created kwargs).

(** From the entry of the body to the [for] statement. *)
Definition enter (kwargs : list (string * pyarg)) : prog (pyobj * list string) :=
  let start_date_input :=
    str_of_arg (default (ArgStr "") (assoc_get kwargs "start_date")) in
  if String.eqb start_date_input "" then lift (Raise (ValueError StartDateRequired))
  else
    let cleaner := default (PyValue (JObj [])) (CLEANERS env !! "intervention_details") in
    run days <- (fun self w => (_start_days_till_now start_date_input w, self, w));
    ret (cleaner, days).

(** Yield the next cleaned row of the day at hand, or go on with [rest]. *)
Definition yield_from (cleaner : pyobj) (rows : list json) (days : list string)
    (rest : prog (option json * generator)) : prog (option json * generator) :=
  match rows with
  | [] => rest
  | row :: rows' =>
      run cleaned <- lift (call cleaner row);
      ret (Some cleaned, Suspended cleaner rows' days)
  end.

(** The [for] loop over the days that are left. *)
Fixpoint day_loop (cleaner : pyobj) (days : list string) : prog (option json * generator) :=
  match days with
  | [] => ret (None, Exhausted)
  | date_day :: days' =>
      run rows <- fetch_day date_day;
      yield_from cleaner rows days' (day_loop cleaner days')
  end.

(** Run the generator up to its next [yield]. *)
Definition resume (g : generator) : prog (option json * generator) :=
  match g with
  | Created kwargs =>
      run started <- enter kwargs;
      day_loop (fst started) (snd started)
  | Suspended cleaner rows days =>
      yield_from cleaner rows days (day_loop cleaner days)
  | Exhausted => ret (None, Exhausted)
  end.

(** [next(g)]: the row yielded ([None] for StopIteration) or the exception,
    and the generator afterwards. *)
Definition next (g : generator) (self : Coosto) (w : World)
    : result (option json) * generator * Coosto * World :=
  match resume g self w with
  | (Ok (item, g'), self', w') => (Ok item, g', self', w')
  | (Raise e, self', w') => (Raise e, Exhausted, self', w')
  end.

(** The windows of the days that [intervention_details] walks. *)
Definition day_windows (start_date : string) (w : World) : result (list (Z * Z)) :=
  do days <- _start_days_till_now start_date w;
  fold_right (fun date_day rest =>
                do window <- day_window date_day;
                do windows <- rest;
                Ok (window :: windows))
             (Ok []) days.

End Client.

(** ** Views of the day step used by the properties *)

(** The world in which a day's request is issued: after the pause, if a
    next-request time is recorded. *)
Definition paced (self : Coosto) (w : World) : World :=
  match next_request self with
  | Some t => pause_until t w
  | None => w
  end.

(** The world after a request issued in [w] has been answered. *)
Definition answered (env : Env) (r : request) (w : World) : World :=
  {| clock := clock w + latency (server env (List.length (sent w)) r);
     sent := sent w ++ [(clock w, r)] |}.

(** What [fetch_day] does with the response after the pacing state has
    been updated. *)
Definition after_response (resp : response) : result (list json) :=
  do _ <- raise_for_status resp;
  do response_data <- response_json resp;
  do data <- py_get response_data "data" JNull;
  py_iter data.

(** What [_login] reads from the response: the session token. *)
Definition login_token (resp : response) : result json :=
  do _ <- raise_for_status resp;
  do decoded <- response_json resp;
  do response_data <- py_get decoded "data" (JObj []);
  py_get response_data "sessionid" JNull.

(** What [rate_limit] reads from the response. *)
Definition rate_limit_data (resp : response) : result json :=
  do _ <- raise_for_status resp;
  do decoded <- response_json resp;
  py_get decoded "data" JNull.

(** The object before [__init__] has run a method. *)
Definition blank (user pass : string) : Coosto :=
  {| username := user; password := pass; cookies := [];
     max_requests := None; next_request := None |}.

(** The start date is absent or empty. *)
Definition no_start_date (kwargs : list (string * pyarg)) : Prop :=
  assoc_get kwargs "start_date" = None \/
  assoc_get kwargs "start_date" = Some (ArgStr "").

(** ** Runs of the generator *)

(** Time passes outside the generator. *)
Definition advance (w : World) (dt : Q) : World :=
  {| clock := clock w + dt; sent := sent w |}.

(** The generator is driven by [next], and between two calls the consumer
    lets time pass. *)
Inductive reaches (env : Env)
  : generator * Coosto * World -> generator * Coosto * World -> Prop :=
| reaches_here c : reaches env c c
| reaches_next g self w r g' self' w' c :
    next env g self w = (r, g', self', w') ->
    reaches env (g', self', w') c ->
    reaches env (g, self, w) c
| reaches_later g self w dt c :
    (0 <= dt)%Q ->
    reaches env (g, self, advance w dt) c ->
    reaches env (g, self, w) c.





(** Every character is a decimal digit. *)
Fixpoint all_digits (s : string) : bool :=
  match s with
  | EmptyString => true
  | String c s' => is_digit c && all_digits s'
  end.

(** The calendar day of a naive datetime. *)
Definition ordinal_of (naive : Z) : Z := naive / 86400 + EPOCH_ORDINAL.

(** ** Scenarios *)

Definition reply_json (status : Z) (j : json) : reply :=
  {| latency := 1 # 10;
     answer := Some {| status_code := status; body := Some j |} |}.

(** A server that accepts the login with session "abc", reports the given
    rate limit, and answers every day with the same body. *)
Definition scenario_server (enabled limit : json) (status : Z) (day : json)
    (n : nat) (r : request) : reply :=
  match n with
  | O => reply_json 200 (JObj [("data", JObj [("sessionid", JStr "abc")])])
  | S O => reply_json 200 (JObj [("data", JObj [("enabled", enabled);
                                                 ("max_requests", limit)])])
  | _ => reply_json status day
  end.

(** 2020-01-03T10:00:00 *)
Definition scenario_now : Z := 1578045600.

(** The scenario on a machine whose local time is UTC. *)
Definition scenario (enabled limit : json) (status : Z) (day : json)
    (registry : gmap string pyobj) : Env :=
  {| server := scenario_server enabled limit status day;
     utcnow := fun _ => scenario_now;
     mktime := fun naive => naive;
     CLEANERS := registry |}.

Definition fresh_world : World := {| clock := 0; sent := [] |}.

(** The object after a login as "abc" with the given rate limit. *)
Definition logged_in (limit : option json) (next : option Q) : Coosto :=
  {| username := "user"; password := "secret";
     cookies := [("sessionid", JStr "abc")];
     max_requests := limit; next_request := next |}.

(** The world after the constructor has run against the scenario. *)
Definition session_world : World :=
  {| clock := 2 # 10;
     sent := [(0%Q, login_request (blank "user" "secret"));
              (1 # 10, rate_limit_request (logged_in None None))] |}.

(** Two day steps in a row against a server that allows 60 requests per
    minute and has no rows. *)
Definition quiet : Env :=
  scenario (JBool true) (JInt 60) 200 (JObj [("data", JArr [])]) ∅.



(** A whole run against the same server: three days, no rows. *)
Definition quiet_run : result (option json) * generator * Coosto * World :=
  next quiet (Created [("start_date", ArgStr "2020-01-01")])
       (logged_in (Some (JInt 60)) None) session_world.

(** A server whose login answer is 200 with an empty [data]. *)
Definition tokenless_server (n : nat) (r : request) : reply :=
  reply_json 200 (JObj [("data", JObj [])]).

Definition tokenless : Env :=
  {| server := tokenless_server;
     utcnow := fun _ => scenario_now;
     mktime := fun naive => naive;
     CLEANERS := ∅ |}.

(** Central European local time around the change to summer time of
    2020-03-29: UTC+1 before 02:00 local, UTC+2 after. *)
Definition amsterdam_mktime (naive : Z) : Z :=
  if naive <? 1585447200 then naive - 3600 else naive - 7200.

(** 2020-03-30T10:00:00 UTC on a machine in Amsterdam. *)
Definition amsterdam : Env :=
  {| server := scenario_server (JBool true) (JInt 60) 200 (JObj [("data", JArr [])]);
     utcnow := fun _ => 1585562400;
     mktime := amsterdam_mktime;
     CLEANERS := ∅ |}.

(** ** Views used by the further properties *)

(** The character does not occur in the text. *)
Fixpoint lacks (c : ascii) (s : string) : bool :=
  match s with
  | EmptyString => true
  | String c' s' => negb (Ascii.eqb c' c) && lacks c s'
  end.

(** [str(kwargs.get('start_date', ''))] *)
Definition start_date_text (kwargs : list (string * pyarg)) : string :=
  str_of_arg (default (ArgStr "") (assoc_get kwargs "start_date")).


(** [[next(g) for _ in range(n)]]: the results of [n] calls of [next], and
    the generator, the object and the world after them. *)
Fixpoint take (env : Env) (n : nat) (g : generator) (self : Coosto) (w : World)
    : list (result (option json)) * generator * Coosto * World :=
  match n with
  | O => ([], g, self, w)
  | S n' =>
      let '(r, g1, self1, w1) := next env g self w in
      let '(rs, g2, self2, w2) := take env n' g1 self1 w1 in
      (r :: rs, g2, self2, w2)
  end.


(** A cleaner that accepts only objects. *)
Definition only_objects (row : json) : result json :=
  match row with
  | JObj _ => Ok row
  | _ => Raise AttributeError
  end.

(** The requests issued after the first [base] ones. *)
Definition requests_since (base : nat) (w : World) : list request :=
  map snd (skipn base (sent w)).

(** The epoch second at which the [i]-th day from [period] starts. *)
Definition day_start (env : Env) (period : Z) (i : nat) : Z :=
  mktime env (midnight (period + Z.of_nat i)).

(** The request of the [i]-th day from [period]. *)
Definition day_request_at (env : Env) (self : Coosto) (period : Z) (i : nat)
    : request :=
  day_request self (py_str (day_start env period i))
              (day_start env period i + 86400).

(** What holds between two steps of a run from the start day [period]: the
    requests so far are those of the first days, one each and in order, and
    a suspended generator holds the days that follow them. *)
Definition one_per_day (env : Env) (kwargs : list (string * pyarg))
    (self0 : Coosto) (period : Z) (base : nat)
    (c : generator * Coosto * World) : Prop :=
  cookies (snd (fst c)) = cookies self0 /\
  (base <= List.length (sent (snd c)))%nat /\
  exists k,
    requests_since base (snd c) = map (day_request_at env self0 period) (seq 0 k) /\
    match fst (fst c) with
    | Created kwargs' => kwargs' = kwargs /\ k = 0%nat
    | Suspended _ _ days =>
        exists m, days = map (fun i => py_str (day_start env period i)) (seq k m)
    | Exhausted => True
    end.



(** A server whose login answer is 200 with [data] null. *)
Definition null_login_data : Env :=
  {| server := fun n r => reply_json 200 (JObj [("data", JNull)]);
     utcnow := fun _ => scenario_now;
     mktime := fun naive => naive;
     CLEANERS := ∅ |}.

(** * Properties *)

(** ** Unfolding method bodies *)

Ltac unfold_prog :=
  unfold and_then, lift, ret, send, http, get_max_requests in *; simpl in *.

Lemma sent_paced self w : sent (paced self w) = sent w.
Proof. unfold paced. destruct (next_request self); reflexivity. Qed.



Lemma paced_unpaced self w : next_request self = None -> paced self w = w.
Proof. intros E. unfold paced. now rewrite E. Qed.

Lemma fetch_day_unfold env date_day start self w :
  py_int date_day = Ok start ->
  let req := day_request self date_day (start + 86400) in
  let w1 := answered env req (paced self w) in
  fetch_day env date_day self w =
    match answer (server env (List.length (sent w)) req) with
    | None => (Raise TransportError, self, w1)
    | Some resp =>
        match max_requests self with
        | None => (Raise AttributeError, self, w1)
        | Some limit =>
            match sixty_over limit with
            | Raise e => (Raise e, self, w1)
            | Ok pause =>
                (after_response resp,
                 set_next_request self (Some (clock w1 + pause)%Q), w1)
            end
        end
    end.
Proof.
  intros Hint req w1. subst req w1.
  unfold fetch_day, day_window, answered, after_response.
  rewrite Hint. unfold_prog.
  assert (Hs : sent (paced self w) = sent w) by apply sent_paced.
  unfold paced in *.
  destruct (next_request self) as [t|]; simpl in *;
    destruct (answer _); try reflexivity;
    destruct (max_requests self) as [limit|]; try reflexivity;
    destruct (sixty_over limit); try reflexivity;
    destruct (raise_for_status r) as [[]|]; try reflexivity;
    destruct (response_json r); try reflexivity;
    simpl; destruct (py_get _ _ _); reflexivity.
Qed.

Lemma enter_no_start_date env kwargs self w :
  no_start_date kwargs ->
  enter env kwargs self w = (Raise (ValueError StartDateRequired), self, w).
Proof.
  intros [H|H]; unfold enter; rewrite H; reflexivity.
Qed.

Lemma next_no_start_date env kwargs self w :
  no_start_date kwargs ->
  next env (Created kwargs) self w =
    (Raise (ValueError StartDateRequired), Exhausted, self, w).
Proof.
  intros H. unfold next, resume, and_then.
  now rewrite (enter_no_start_date env kwargs self w H).
Qed.

Lemma login_unfold env self w :
  _login env self w =
    let w1 := answered env (login_request self) w in
    match answer (server env (List.length (sent w)) (login_request self)) with
    | None => (Raise TransportError, self, w1)
    | Some resp =>
        match login_token resp with
        | Ok sessionid => (Ok tt, set_cookies self [("sessionid", sessionid)], w1)
        | Raise e => (Raise e, self, w1)
        end
    end.
Proof.
  unfold _login, login_token, answered. unfold_prog.
  destruct (answer _) as [resp|]; [|reflexivity].
  destruct (raise_for_status resp) as [[]|]; [|reflexivity]. simpl.
  destruct (response_json resp) as [decoded|]; [|reflexivity]. simpl.
  destruct (py_get decoded _ _) as [data|]; [|reflexivity]. simpl.
  destruct (py_get data _ _); reflexivity.
Qed.

Lemma rate_limit_unfold env self w :
  rate_limit env self w =
    let w1 := answered env (rate_limit_request self) w in
    match answer (server env (List.length (sent w)) (rate_limit_request self)) with
    | None => (Raise TransportError, self, w1)
    | Some resp => (rate_limit_data resp, self, w1)
    end.
Proof.
  unfold rate_limit, rate_limit_data, answered. unfold_prog.
  destruct (answer _) as [resp|]; [|reflexivity].
  destruct (raise_for_status resp) as [[]|]; [|reflexivity]. simpl.
  destruct (response_json resp) as [decoded|]; reflexivity.
Qed.

Lemma set_rate_limit_unfold env self w :
  set_rate_limit env self w =
    match rate_limit env self w with
    | (Raise e, self1, w1) => (Raise e, self1, w1)
    | (Ok rate_dict, self1, w1) =>
        match py_get rate_dict "enabled" JNull with
        | Raise e => (Raise e, self1, w1)
        | Ok enabled =>
            if py_truthy enabled
            then match py_get rate_dict "max_requests" JNull with
                 | Raise e => (Raise e, self1, w1)
                 | Ok limit => (Ok tt, set_max_requests self1 limit, w1)
                 end
            else (Ok tt, self1, w1)
        end
    end.
Proof.
  unfold set_rate_limit. unfold_prog.
  destruct (rate_limit env self w) as [[[rate_dict|e] self1] w1]; [|reflexivity].
  destruct (py_get rate_dict "enabled" JNull) as [enabled|]; [|reflexivity].
  destruct (py_truthy enabled); simpl; [|reflexivity].
  destruct (py_get rate_dict "max_requests" JNull); reflexivity.
Qed.

Lemma init_unfold env user pass w :
  __init__ env user pass w =
    match _login env (blank user pass) w with
    | (Raise e, _, w1) => (Raise e, w1)
    | (Ok _, self1, w1) =>
        match set_rate_limit env self1 w1 with
        | (Raise e, _, w2) => (Raise e, w2)
        | (Ok _, self2, w2) => (Ok (set_next_request self2 None), w2)
        end
    end.
Proof.
  unfold __init__, blank. unfold_prog.
  destruct (_login env _ w) as [[[[]|e] self1] w1]; [|reflexivity].
  destruct (set_rate_limit env self1 w1) as [[[[]|e] self2] w2]; reflexivity.
Qed.

(** A client that was built has issued the login and the rate-limit
    request, in that order, and nothing else. *)
Lemma init_requests env user pass w self w1 :
  __init__ env user pass w = (Ok self, w1) ->
  exists t1 t2,
    sent w1 = (sent w ++ [(t1, login_request (blank user pass));
                          (t2, rate_limit_request self)])%list /\
    next_request self = None /\
    username self = user /\ password self = pass.
Proof.
  rewrite init_unfold, login_unfold. simpl.
  destruct (answer _) as [resp|]; [|discriminate].
  destruct (login_token resp) as [sessionid|]; [|discriminate].
  rewrite set_rate_limit_unfold, rate_limit_unfold. simpl.
  destruct (answer _) as [resp2|]; [|discriminate].
  destruct (rate_limit_data resp2) as [rate_dict|]; [|discriminate].
  destruct (py_get rate_dict "enabled" JNull) as [enabled|]; [|discriminate].
  destruct (py_truthy enabled).
  - destruct (py_get rate_dict "max_requests" JNull); [|discriminate].
    intros [= <- <-]. simpl. eexists _, _. rewrite <- app_assoc. simpl.
    repeat split; reflexivity.
  - intros [= <- <-]. simpl. eexists _, _. rewrite <- app_assoc. simpl.
    repeat split; reflexivity.
Qed.

(** ** The lazy generator *)

(** C10: [intervention_details] is a lazy generator.  Calling it validates
    nothing and issues no request, whatever the arguments: the object and
    the world are as before and nothing is raised.  With an absent or empty
    start date, the error for the missing start date is raised when the
    first element is requested. *)
Theorem intervention_details_is_lazy env kwargs self w :
  intervention_details kwargs self w = (Ok (Created kwargs), self, w) /\
  (no_start_date kwargs ->
   next env (Created kwargs) self w =
     (Raise (ValueError StartDateRequired), Exhausted, self, w)).
Proof.
  split; [reflexivity|]. apply next_no_start_date.
Qed.

Lemma intervention_details_is_lazy_witness :
  intervention_details [] (logged_in None None) fresh_world =
    (Ok (Created []), logged_in None None, fresh_world) /\
  next (scenario (JBool true) (JInt 60) 200 (JObj []) ∅) (Created [])
       (logged_in None None) fresh_world =
    (Raise (ValueError StartDateRequired), Exhausted, logged_in None None, fresh_world).
Proof.
  destruct (intervention_details_is_lazy
              (scenario (JBool true) (JInt 60) 200 (JObj []) ∅) []
              (logged_in None None) fresh_world) as [Hcall Hnext].
  split; [exact Hcall|]. apply Hnext. left. reflexivity.
Defined.

(** ** The missing start date *)

(** C4, as stated, fails: in a run with an empty start date the client has
    been built first, and building it has issued the login and the
    rate-limit request before the error is raised. *)
Lemma missing_start_date_after_two_requests :
  exists self w1 w2,
    __init__ (scenario (JBool true) (JInt 60) 200 (JObj []) ∅)
             "user" "secret" fresh_world = (Ok self, w1) /\
    next (scenario (JBool true) (JInt 60) 200 (JObj []) ∅)
         (Created [("start_date", ArgStr "")]) self w1 =
      (Raise (ValueError StartDateRequired), Exhausted, self, w2) /\
    List.length (sent w2) = 2%nat.
Proof.
  eexists _, _, _. split; [reflexivity|]. split; reflexivity.
Qed.

(** C4, amended: with an absent or empty start date the first [next] raises
    the error for the missing start date and issues no request of its own;
    the two requests of the constructor, login and rate limit, have been
    issued before. *)
Theorem missing_start_date_fails_without_request
    env user pass kwargs w self w1 :
  __init__ env user pass w = (Ok self, w1) ->
  no_start_date kwargs ->
  next env (Created kwargs) self w1 =
    (Raise (ValueError StartDateRequired), Exhausted, self, w1) /\
  exists t1 t2,
    sent w1 = (sent w ++ [(t1, login_request (blank user pass));
                          (t2, rate_limit_request self)])%list.
Proof.
  intros Hinit Hmissing. split.
  - now apply next_no_start_date.
  - destruct (init_requests _ _ _ _ _ _ Hinit) as (t1 & t2 & Hsent & _).
    now exists t1, t2.
Qed.

Lemma missing_start_date_fails_without_request_witness :
  exists self w1,
    next (scenario (JBool true) (JInt 60) 200 (JObj []) ∅) (Created []) self w1 =
      (Raise (ValueError StartDateRequired), Exhausted, self, w1) /\
    exists t1 t2,
      sent w1 = (sent fresh_world
                 ++ [(t1, login_request (blank "user" "secret"));
                     (t2, rate_limit_request self)])%list.
Proof.
  eexists _, _.
  apply (missing_start_date_fails_without_request
           (scenario (JBool true) (JInt 60) 200 (JObj []) ∅)
           "user" "secret" [] fresh_world).
  - reflexivity.
  - left. reflexivity.
Defined.

(** ** The rate limit that the constructor records *)

(** What a successful constructor has seen and stored. *)
Lemma init_inversion env user pass w self w1 :
  __init__ env user pass w = (Ok self, w1) ->
  exists resp1 sessionid resp2 rate_dict enabled,
    answer (server env (List.length (sent w)) (login_request (blank user pass)))
      = Some resp1 /\
    login_token resp1 = Ok sessionid /\
    cookies self = [("sessionid", sessionid)] /\
    answer (server env (S (List.length (sent w))) (rate_limit_request self))
      = Some resp2 /\
    rate_limit_data resp2 = Ok rate_dict /\
    py_get rate_dict "enabled" JNull = Ok enabled /\
    max_requests self =
      (if py_truthy enabled
       then match py_get rate_dict "max_requests" JNull with
            | Ok limit => Some limit
            | Raise _ => None
            end
       else None) /\
    next_request self = None.
Proof.
  rewrite init_unfold, login_unfold. simpl.
  destruct (answer _) as [resp1|] eqn:E1; [|discriminate].
  destruct (login_token resp1) as [sessionid|] eqn:T1; [|discriminate].
  rewrite set_rate_limit_unfold, rate_limit_unfold. simpl.
  rewrite length_app. simpl. rewrite Nat.add_1_r.
  destruct (answer (server env (S _) _)) as [resp2|] eqn:E2; [|discriminate].
  destruct (rate_limit_data resp2) as [rate_dict|] eqn:D2; [|discriminate].
  destruct (py_get rate_dict "enabled" JNull) as [enabled|] eqn:G; [|discriminate].
  destruct (py_truthy enabled) eqn:B.
  - destruct (py_get rate_dict "max_requests" JNull) as [limit|] eqn:L; [|discriminate].
    intros [= <- <-]. exists resp1, sessionid, resp2, rate_dict, enabled.
    rewrite B, L. repeat split; assumption.
  - intros [= <- <-]. exists resp1, sessionid, resp2, rate_dict, enabled.
    rewrite B. repeat split; assumption.
Qed.

(** C1: when the rate-limit response reports [enabled] as false, the
    constructor leaves [max_requests] unset; no pause ever happens, every
    day's request is issued at once, but the day step then raises an
    AttributeError when it reads [self.max_requests], whatever the response
    was.  The per-day step does not complete without error. *)
Theorem disabled_rate_limit_day_step_raises
    env user pass w self w1 resp rate_dict enabled :
  __init__ env user pass w = (Ok self, w1) ->
  answer (server env (S (List.length (sent w))) (rate_limit_request self))
    = Some resp ->
  rate_limit_data resp = Ok rate_dict ->
  py_get rate_dict "enabled" JNull = Ok enabled ->
  py_truthy enabled = false ->
  max_requests self = None /\
  next_request self = None /\
  forall date_day start w' resp',
    py_int date_day = Ok start ->
    answer (server env (List.length (sent w'))
                   (day_request self date_day (start + 86400))) = Some resp' ->
    fetch_day env date_day self w' =
      (Raise AttributeError, self,
       answered env (day_request self date_day (start + 86400)) w').
Proof.
  intros Hinit Hanswer Hdata Henabled Hfalse.
  destruct (init_inversion _ _ _ _ _ _ Hinit)
    as (resp1 & sid & resp2 & rate_dict2 & enabled2
        & _ & _ & _ & Hanswer2 & Hdata2 & Henabled2 & Hmax & Hnext).
  assert (resp2 = resp) by congruence. subst resp2.
  assert (rate_dict2 = rate_dict) by congruence. subst rate_dict2.
  assert (enabled2 = enabled) by congruence. subst enabled2.
  rewrite Hfalse in Hmax.
  split; [exact Hmax|]. split; [exact Hnext|].
  intros date_day start w' resp' Hint Hresp.
  rewrite (fetch_day_unfold env date_day start self w' Hint). simpl.
  rewrite Hresp, Hmax. now rewrite (paced_unpaced self w' Hnext).
Qed.

Lemma disabled_rate_limit_day_step_raises_witness :
  exists self w1,
    __init__ (scenario (JBool false) (JInt 60) 200 (JObj [("data", JArr [])]) ∅)
             "user" "secret" fresh_world = (Ok self, w1) /\
    max_requests self = None /\
    fetch_day (scenario (JBool false) (JInt 60) 200 (JObj [("data", JArr [])]) ∅)
              "1577836800" self w1 =
      (Raise AttributeError, self,
       answered (scenario (JBool false) (JInt 60) 200 (JObj [("data", JArr [])]) ∅)
                (day_request self "1577836800" (1577836800 + 86400)) w1).
Proof.
  eexists _, _. split; [reflexivity|].
  destruct (disabled_rate_limit_day_step_raises
              (scenario (JBool false) (JInt 60) 200 (JObj [("data", JArr [])]) ∅)
              "user" "secret" fresh_world _ _ _ _ _
              eq_refl eq_refl eq_refl eq_refl eq_refl) as (Hmax & _ & Hday).
  split; [exact Hmax|].
  apply (Hday "1577836800" 1577836800 _
              {| status_code := 200; body := Some (JObj [("data", JArr [])]) |});
    reflexivity.
Defined.

(** ** A response without [data] *)

(** C2: a 2xx response whose JSON object has no [data] key does not give an
    empty day: [response_data.get('data')] is [None], and iterating over it
    raises a TypeError. *)
Theorem missing_data_raises_type_error
    env date_day start self w limit pause resp fields :
  py_int date_day = Ok start ->
  max_requests self = Some limit ->
  sixty_over limit = Ok pause ->
  answer (server env (List.length (sent w))
                 (day_request self date_day (start + 86400))) = Some resp ->
  200 <= status_code resp <= 299 ->
  body resp = Some (JObj fields) ->
  assoc_get fields "data" = None ->
  forall cleaner days,
    next env (Suspended cleaner [] (date_day :: days)) self w =
      (Raise TypeError, Exhausted,
       set_next_request self
         (Some (clock (answered env (day_request self date_day (start + 86400))
                                (paced self w)) + pause)%Q),
       answered env (day_request self date_day (start + 86400)) (paced self w)).
Proof.
  intros Hint Hmax Hpause Hresp Hstatus Hbody Hdata cleaner days.
  unfold next, resume, yield_from. simpl. unfold and_then.
  rewrite (fetch_day_unfold env date_day start self w Hint). simpl.
  rewrite Hresp, Hmax, Hpause.
  unfold after_response, raise_for_status, response_json.
  replace ((200 <=? status_code resp) && (status_code resp <=? 299)) with true
    by (symmetry; apply andb_true_iff; split; apply Z.leb_le; lia).
  rewrite Hbody. simpl. rewrite Hdata. reflexivity.
Qed.

Lemma missing_data_raises_type_error_witness :
  exists self' w',
    next (scenario (JBool true) (JInt 60) 200 (JObj []) ∅)
         (Suspended (PyValue (JObj [])) [] ["1577836800"])
         (logged_in (Some (JInt 60)) None) session_world =
      (Raise TypeError, Exhausted, self', w').
Proof.
  eexists _, _.
  apply (missing_data_raises_type_error
           (scenario (JBool true) (JInt 60) 200 (JObj []) ∅)
           "1577836800" 1577836800 (logged_in (Some (JInt 60)) None) session_world
           (JInt 60) (60 / inject_Z 60)%Q
           {| status_code := 200; body := Some (JObj []) |} []);
    try reflexivity.
  simpl. lia.
Defined.

(** ** No registered cleaner *)

(** C3: when the registry has no cleaner for 'intervention_details', the
    lookup falls back to the empty dict, which is not callable: the first
    raw row of the first day that has one raises a TypeError instead of
    being yielded unmodified. *)
Theorem unregistered_cleaner_raises_type_error
    env kwargs self w cleaner date_day days self1 w1 row rows self2 w2 :
  CLEANERS env !! "intervention_details" = None ->
  enter env kwargs self w = (Ok (cleaner, date_day :: days), self1, w1) ->
  fetch_day env date_day self1 w1 = (Ok (row :: rows), self2, w2) ->
  cleaner = PyValue (JObj []) /\
  next env (Created kwargs) self w = (Raise TypeError, Exhausted, self2, w2).
Proof.
  intros Hmiss Henter Hfetch.
  assert (Hcleaner : cleaner = PyValue (JObj [])).
  { unfold enter in Henter. rewrite Hmiss in Henter. simpl in Henter.
    destruct (String.eqb _ ""); [discriminate|].
    unfold and_then, ret in Henter.
    destruct (_start_days_till_now _ _ _); [|discriminate].
    now injection Henter as <- _ _ _. }
  split; [exact Hcleaner|]. subst cleaner.
  unfold next, resume, and_then. rewrite Henter. simpl.
  unfold and_then. rewrite Hfetch. reflexivity.
Qed.

Lemma unregistered_cleaner_raises_type_error_witness :
  exists self2 w2,
    next (scenario (JBool true) (JInt 60) 200
                   (JObj [("data", JArr [JObj [("id", JInt 1)]])]) ∅)
         (Created [("start_date", ArgStr "2020-01-01")])
         (logged_in (Some (JInt 60)) None) session_world =
      (Raise TypeError, Exhausted, self2, w2).
Proof.
  eexists _, _.
  eapply (unregistered_cleaner_raises_type_error
            (scenario (JBool true) (JInt 60) 200
                      (JObj [("data", JArr [JObj [("id", JInt 1)]])]) ∅)
            [("start_date", ArgStr "2020-01-01")]
            (logged_in (Some (JInt 60)) None) session_world).
  - reflexivity.
  - vm_compute. reflexivity.
  - vm_compute. reflexivity.
Defined.

(** ** The pacing state *)








(** ** The login *)

(** C6, as stated, fails: a 2xx login response without a session token is
    not an error.  [_login] returns, and the cookie it stores is [None]. *)
Lemma login_without_token_succeeds :
  answer (server tokenless 0 (login_request (blank "user" "secret"))) =
    Some {| status_code := 200; body := Some (JObj [("data", JObj [])]) |} /\
  _login tokenless (blank "user" "secret") fresh_world =
    (Ok tt,
     set_cookies (blank "user" "secret") [("sessionid", JNull)],
     answered tokenless (login_request (blank "user" "secret")) fresh_world).
Proof. split; reflexivity. Qed.

(** C6, amended: for a login response whose body is a JSON object with
    [data] absent or an object, [_login] fails exactly when the status is
    not 2xx, with the error of [raise_for_status]; on a 2xx response it
    stores the [sessionid] of [data] as the session cookie, and [None] when
    the token is missing. *)
Theorem login_fails_exactly_on_error_status
    env self w resp fields data_fields :
  answer (server env (List.length (sent w)) (login_request self)) = Some resp ->
  body resp = Some (JObj fields) ->
  assoc_get fields "data" = Some (JObj data_fields) \/
  (assoc_get fields "data" = None /\ data_fields = []) ->
  let w1 := answered env (login_request self) w in
  (200 <= status_code resp <= 299 ->
   _login env self w =
     (Ok tt,
      set_cookies self
        [("sessionid", default JNull (assoc_get data_fields "sessionid"))],
      w1)) /\
  (~ 200 <= status_code resp <= 299 ->
   _login env self w = (Raise HTTPStatusError, self, w1)).
Proof.
  intros Hresp Hbody Hdata w1. subst w1.
  rewrite login_unfold. simpl. rewrite Hresp.
  unfold login_token, raise_for_status, response_json. rewrite Hbody.
  split; intros Hstatus.
  - replace ((200 <=? status_code resp) && (status_code resp <=? 299)) with true
      by (symmetry; apply andb_true_iff; split; apply Z.leb_le; lia).
    simpl.
    destruct Hdata as [Hdata|[Hdata ->]]; rewrite Hdata; simpl;
      [destruct (assoc_get data_fields "sessionid")|]; reflexivity.
  - destruct ((200 <=? status_code resp) && (status_code resp <=? 299)) eqn:E;
      [|reflexivity].
    apply andb_true_iff in E. destruct E as [E1 E2].
    apply Z.leb_le in E1, E2. lia.
Qed.

Lemma login_fails_exactly_on_error_status_witness :
  _login (scenario (JBool true) (JInt 60) 200 (JObj []) ∅)
         (blank "user" "secret") fresh_world =
    (Ok tt,
     set_cookies (blank "user" "secret") [("sessionid", JStr "abc")],
     answered (scenario (JBool true) (JInt 60) 200 (JObj []) ∅)
              (login_request (blank "user" "secret")) fresh_world).
Proof.
  destruct (login_fails_exactly_on_error_status
              (scenario (JBool true) (JInt 60) 200 (JObj []) ∅)
              (blank "user" "secret") fresh_world
              {| status_code := 200;
                 body := Some (JObj [("data", JObj [("sessionid", JStr "abc")])]) |}
              [("data", JObj [("sessionid", JStr "abc")])]
              [("sessionid", JStr "abc")]
              eq_refl eq_refl (or_introl eq_refl)) as [Hok _].
  apply Hok. simpl. lia.
Defined.

(** ** Printing and reading integers *)

Lemma string_of_uint_digits u : all_digits (NilEmpty.string_of_uint u) = true.
Proof. induction u; simpl; auto. Qed.

Lemma string_of_uint_nonempty u :
  u <> Decimal.Nil -> NilEmpty.string_of_uint u <> "".
Proof. destruct u; simpl; congruence. Qed.

Lemma digit_not_c_space c : is_digit c = true -> is_c_space c = false.
Proof.
  unfold is_digit, is_c_space. intros H.
  apply andb_true_iff in H. destruct H as [H1 H2].
  apply Nat.leb_le in H1, H2.
  apply orb_false_iff. split.
  - apply andb_false_iff. right. apply Nat.leb_gt. lia.
  - apply Nat.eqb_neq. lia.
Qed.

Lemma rstrip_digits s : all_digits s = true -> rstrip_with is_c_space s = s.
Proof.
  induction s as [|c s IH]; simpl; [reflexivity|].
  intros H. apply andb_true_iff in H. destruct H as [Hc Hs].
  rewrite (IH Hs), (digit_not_c_space c Hc). reflexivity.
Qed.

Lemma literal_digits_all s :
  all_digits s = true ->
  forall after_digit, s <> "" \/ after_digit = true ->
  literal_digits after_digit s = Some s.
Proof.
  induction s as [|c s IH]; simpl; intros H after_digit Hne.
  - destruct Hne as [Hne| ->]; [congruence|reflexivity].
  - apply andb_true_iff in H. destruct H as [Hc Hs].
    rewrite Hc, (IH Hs true) by now right. reflexivity.
Qed.

Lemma digits_value_printed u :
  u <> Decimal.Nil ->
  digits_value (NilEmpty.string_of_uint u) = Some (Z.of_uint u).
Proof.
  intros Hu. unfold digits_value.
  rewrite (literal_digits_all _ (string_of_uint_digits u) false)
    by (left; now apply string_of_uint_nonempty).
  now rewrite NilEmpty.usu.
Qed.

(** [int()] of a non-empty string of digits is the value of the digits. *)
Lemma py_int_digits s :
  all_digits s = true -> s <> "" ->
  py_int s = match digits_value s with
             | Some n => Ok n
             | None => Raise (ValueError InvalidIntLiteral)
             end.
Proof.
  intros Hs Hne. destruct s as [|c s']; [congruence|].
  unfold py_int.
  pose proof Hs as Hs0. simpl in Hs0.
  apply andb_true_iff in Hs0. destruct Hs0 as [Hc _].
  replace (lstrip_with is_c_space (String c s')) with (String c s')
    by (simpl; now rewrite (digit_not_c_space c Hc)).
  rewrite (rstrip_digits _ Hs).
  destruct c as [[] [] [] [] [] [] [] []]; try discriminate Hc; reflexivity.
Qed.

(** [int()] of a minus sign and digits is the negated value. *)
Lemma py_int_minus_digits s :
  all_digits s = true ->
  py_int (String "-" s) = match digits_value s with
                          | Some n => Ok (- n)
                          | None => Raise (ValueError InvalidIntLiteral)
                          end.
Proof.
  intros Hs. unfold py_int.
  change (lstrip_with is_c_space (String "-" s)) with (String "-" s).
  change (rstrip_with is_c_space (String "-" s))
    with (String "-" (rstrip_with is_c_space s)).
  rewrite (rstrip_digits _ Hs).
  destruct (digits_value s); reflexivity.
Qed.

Lemma string_of_uint_nonnil u :
  u <> Decimal.Nil -> NilZero.string_of_uint u = NilEmpty.string_of_uint u.
Proof. destruct u; [congruence|reflexivity..]. Qed.

(** [int(str(n))] is [n]. *)
Lemma py_int_py_str n : py_int (py_str n) = Ok n.
Proof.
  unfold py_str. destruct n as [|p|p]; [reflexivity| |]; simpl;
    pose proof (DecimalPos.Unsigned.to_uint_nonnil p) as Hnil;
    rewrite (string_of_uint_nonnil _ Hnil).
  - rewrite py_int_digits
      by (apply string_of_uint_digits || now apply string_of_uint_nonempty).
    rewrite (digits_value_printed _ Hnil).
    unfold Z.of_uint. now rewrite DecimalPos.Unsigned.of_to.
  - rewrite py_int_minus_digits by apply string_of_uint_digits.
    rewrite (digits_value_printed _ Hnil).
    unfold Z.of_uint. now rewrite DecimalPos.Unsigned.of_to.
Qed.

(** ** The day enumeration *)

Lemma midnight_plus period k :
  midnight period + 86400 * k = midnight (period + k).
Proof. unfold midnight. lia. Qed.

(** The rule yields the midnights from the start day to the day of
    [until], both included. *)
Lemma rrule_daily_days period until :
  period <= ordinal_of until <= ymd2ord MAXYEAR 12 31 ->
  rrule_daily period until =
    map (fun k => midnight (period + Z.of_nat k))
        (seq 0 (Z.to_nat (ordinal_of until - period + 1))).
Proof.
  unfold ordinal_of. intros [Hlo Hhi].
  pose proof (Z.div_mod until 86400 ltac:(lia)) as Hdiv.
  pose proof (Z.mod_pos_bound until 86400 ltac:(lia)) as Hmod.
  set (q := until / 86400) in *. set (r := until mod 86400) in *.
  unfold rrule_daily, MAX_MIDNIGHT, midnight.
  change (ymd2ord MAXYEAR 12 31) with 3652059 in *.
  change EPOCH_ORDINAL with 719163 in *.
  assert (Hcount :
            (Z.min until ((3652059 - 719163) * 86400) - (period - 719163) * 86400)
              / 86400 = q + 719163 - period).
  { destruct (Z.min_spec until ((3652059 - 719163) * 86400)) as [[_ ->]|[Hle ->]].
    - symmetry. apply (Z.div_unique _ _ _ r); lia.
    - symmetry. apply (Z.div_unique _ _ _ 0); lia. }
  rewrite Hcount.
  replace ((period - 719163) * 86400 <=?
           Z.min until ((3652059 - 719163) * 86400)) with true
    by (symmetry; apply Z.leb_le; lia).
  apply map_ext. intros k. lia.
Qed.

(** The windows of printed epoch seconds are read back as printed. *)
Lemma windows_of_printed {A} (f : A -> Z) (days : list A) :
  fold_right (fun date_day rest =>
                do window <- day_window date_day;
                do windows <- rest;
                Ok (window :: windows))
             (Ok []) (map (fun d => py_str (f d)) days) =
    Ok (map (fun d => (f d, f d + 86400)) days).
Proof.
  induction days as [|d days IH]; simpl; [reflexivity|].
  unfold day_window at 1. rewrite py_int_py_str. simpl. now rewrite IH.
Qed.

(** The windows of a run: one per day from the start day to the UTC day of
    now, each starting at the epoch second of the day's local midnight. *)
Lemma day_windows_days env start_date w period :
  start_period start_date = Ok period ->
  period <= ordinal_of (utcnow env (clock w)) <= ymd2ord MAXYEAR 12 31 ->
  day_windows env start_date w =
    Ok (map (fun k => (mktime env (midnight (period + Z.of_nat k)),
                       mktime env (midnight (period + Z.of_nat k)) + 86400))
            (seq 0 (Z.to_nat (ordinal_of (utcnow env (clock w)) - period + 1)))).
Proof.
  intros Hperiod Hrange.
  unfold day_windows, _start_days_till_now. rewrite Hperiod. simpl.
  rewrite (rrule_daily_days _ _ Hrange), map_map.
  rewrite (windows_of_printed (fun k => mktime env (midnight (period + Z.of_nat k)))).
  reflexivity.
Qed.

Lemma nth_error_seq_map {A} (f : nat -> A) n i x :
  nth_error (map f (seq 0 n)) i = Some x -> (i < n)%nat /\ x = f i.
Proof.
  rewrite nth_error_map, nth_error_seq.
  destruct (i <? n)%nat eqn:E; simpl; [|discriminate].
  apply Nat.ltb_lt in E. intros [= <-]. now split.
Qed.

(** C5, amended: for a valid start date not after today, where today is
    the UTC calendar day of now, the day windows are [today - start + 1] in
    number and each is 86400 seconds wide.  They are strictly ascending when
    the local clock's conversion to epoch seconds is increasing over the
    enumerated midnights, and contiguous when the local UTC offset is the
    same at all of them, as on a machine that runs in UTC. *)
Theorem day_windows_enumerate_the_days env start_date w period :
  start_period start_date = Ok period ->
  let today := ordinal_of (utcnow env (clock w)) in
  period <= today <= ymd2ord MAXYEAR 12 31 ->
  exists windows,
    day_windows env start_date w = Ok windows /\
    Z.of_nat (List.length windows) = today - period + 1 /\
    (forall i since until,
       nth_error windows i = Some (since, until) -> until = since + 86400) /\
    ((forall day day',
        period <= day < day' -> day' <= today ->
        mktime env (midnight day) < mktime env (midnight day')) ->
     forall i since until since' until',
       nth_error windows i = Some (since, until) ->
       nth_error windows (S i) = Some (since', until') ->
       since < since') /\
    (forall offset,
       (forall day,
          period <= day <= today ->
          mktime env (midnight day) = midnight day - offset) ->
       forall i since until since' until',
         nth_error windows i = Some (since, until) ->
         nth_error windows (S i) = Some (since', until') ->
         until = since').
Proof.
  intros Hperiod today Hrange.
  eexists. split; [apply (day_windows_days env start_date w period Hperiod Hrange)|].
  fold today. set (n := Z.to_nat (today - period + 1)).
  assert (Hn : Z.of_nat n = today - period + 1) by (subst n; lia).
  split; [now rewrite length_map, length_seq|].
  split; [|split].
  - intros i since until H.
    apply nth_error_seq_map in H. destruct H as [_ [= -> ->]]. reflexivity.
  - intros Hmono i since until since' until' H H'.
    apply nth_error_seq_map in H, H'.
    destruct H as [Hi [= -> _]]. destruct H' as [Hi' [= -> _]].
    apply Hmono; lia.
  - intros offset Hoffset i since until since' until' H H'.
    apply nth_error_seq_map in H, H'.
    destruct H as [Hi [= _ ->]]. destruct H' as [Hi' [= -> _]].
    rewrite !Hoffset by lia. unfold midnight. lia.
Qed.

Lemma day_windows_enumerate_the_days_witness :
  exists windows,
    day_windows quiet "2020-01-01" session_world = Ok windows /\
    Z.of_nat (List.length windows) = 3 /\
    (forall i since until since' until',
       nth_error windows i = Some (since, until) ->
       nth_error windows (S i) = Some (since', until') ->
       until = since').
Proof.
  destruct (day_windows_enumerate_the_days
              quiet "2020-01-01" session_world 737425 eq_refl)
    as (windows & Hwindows & Hlength & _ & _ & Hcontiguous).
  - vm_compute. split; discriminate.
  - exists windows. split; [exact Hwindows|]. split; [exact Hlength|].
    apply (Hcontiguous 0). intros day _. simpl. lia.
Defined.

(** C5, as stated, fails: on a machine in Amsterdam, from 2020-03-28 to
    2020-03-30, the window of the 29th, the day summer time begins, ends an
    hour after the window of the 30th starts. *)
Lemma day_windows_overlap_across_dst :
  day_windows amsterdam "2020-03-28" fresh_world =
    Ok [(1585350000, 1585436400);
        (1585436400, 1585522800);
        (1585519200, 1585605600)] /\
  snd (1585436400, 1585522800) <> fst (1585519200, 1585605600).
Proof. split; [vm_compute; reflexivity|discriminate]. Qed.

(** ** Whole runs under a rate limit *)




Section Pacing.

Variable env : Env.
Variable n : Z.
Variable base : nat.

Hypothesis latency_nonneg : forall k r, (0 <= latency (server env k r))%Q.
Hypothesis n_pos : 0 < n.









End Pacing.



(** * Further properties *)

(** ** Reading the start date *)

Lemma split_part sep a b :
  lacks sep a = true ->
  split sep (a ++ String sep b) = a :: split sep b.
Proof.
  induction a as [|c a IH]; simpl; intros H.
  - now rewrite Ascii.eqb_refl.
  - apply andb_true_iff in H. destruct H as [Hc Ha].
    apply negb_true_iff in Hc. rewrite Hc, (IH Ha). reflexivity.
Qed.

Lemma split_whole sep a : lacks sep a = true -> split sep a = [a].
Proof.
  induction a as [|c a IH]; simpl; intros H; [reflexivity|].
  apply andb_true_iff in H. destruct H as [Hc Ha].
  apply negb_true_iff in Hc. rewrite Hc, (IH Ha). reflexivity.
Qed.

(** X5: the start period is read from the first three hyphen-separated
    parts of the text: the year as it stands, the month and the day after
    their leading whitespace is dropped.  Whatever follows a third hyphen is
    ignored. *)
Theorem start_period_reads_three_parts a b c :
  lacks "-" a = true ->
  lacks "-" b = true ->
  lacks "-" c = true ->
  let read := (do year <- py_int a;
               do month <- py_int (lstrip b);
               do day <- py_int (lstrip c);
               date year month day) in
  start_period (a ++ "-" ++ b ++ "-" ++ c) = read /\
  forall rest, start_period (a ++ "-" ++ b ++ "-" ++ c ++ "-" ++ rest) = read.
Proof.
  intros Ha Hb Hc read. subst read. unfold start_period. split.
  - change (a ++ "-" ++ b ++ "-" ++ c) with (a ++ String "-" (b ++ String "-" c)).
    rewrite (split_part "-" a _ Ha), (split_part "-" b _ Hb), (split_whole "-" c Hc).
    reflexivity.
  - intros rest.
    change (a ++ "-" ++ b ++ "-" ++ c ++ "-" ++ rest)
      with (a ++ String "-" (b ++ String "-" (c ++ String "-" rest))).
    rewrite (split_part "-" a _ Ha), (split_part "-" b _ Hb), (split_part "-" c _ Hc).
    reflexivity.
Qed.

Lemma start_period_reads_three_parts_witness :
  start_period "2020-01-01" = Ok 737425 /\
  start_period "2020- 1- 1-T10:00" = Ok 737425.
Proof.
  destruct (start_period_reads_three_parts "2020" "01" "01"
              eq_refl eq_refl eq_refl) as [Hplain _].
  destruct (start_period_reads_three_parts "2020" " 1" " 1"
              eq_refl eq_refl eq_refl) as [_ Hrest].
  split; [exact Hplain|exact (Hrest "T10:00")].
Defined.

(** X6: a text with fewer than three parts has no month or no day to
    index: when the parts that are there are integers, reading the start
    period raises an IndexError. *)
Theorem start_period_needs_three_parts a b year month :
  lacks "-" a = true ->
  lacks "-" b = true ->
  py_int a = Ok year ->
  py_int (lstrip b) = Ok month ->
  start_period a = Raise IndexError /\
  start_period (a ++ "-" ++ b) = Raise IndexError.
Proof.
  intros Ha Hb Hyear Hmonth. unfold start_period. split.
  - rewrite (split_whole "-" a Ha). simpl. now rewrite Hyear.
  - change (a ++ "-" ++ b) with (a ++ String "-" b).
    rewrite (split_part "-" a _ Ha), (split_whole "-" b Hb). simpl.
    now rewrite Hyear, Hmonth.
Qed.

Lemma start_period_needs_three_parts_witness :
  start_period "2020" = Raise IndexError /\
  start_period "2020-01" = Raise IndexError.
Proof.
  apply (start_period_needs_three_parts "2020" "01" 2020 1); reflexivity.
Defined.

Lemma start_period_empty : start_period "" = Raise (ValueError InvalidIntLiteral).
Proof. reflexivity. Qed.

(** The body of the generator, up to the day loop, never touches the
    object or the world. *)
Lemma enter_unfold env kwargs self w :
  enter env kwargs self w =
    (if String.eqb (start_date_text kwargs) ""
     then Raise (ValueError StartDateRequired)
     else
       do days <- _start_days_till_now env (start_date_text kwargs) w;
       Ok (default (PyValue (JObj [])) (CLEANERS env !! "intervention_details"),
           days),
     self, w).
Proof.
  unfold enter, start_date_text.
  destruct (String.eqb _ ""); [reflexivity|].
  unfold and_then, ret. destruct (_start_days_till_now _ _ _); reflexivity.
Qed.

(** X3: a start date that is there but cannot be read as a date fails the
    first [next] with the error of the reading, a ValueError, an IndexError
    or an OverflowError, before any request is issued. *)
Theorem unreadable_start_date_raises_before_any_request env kwargs self w e :
  start_date_text kwargs <> "" ->
  start_period (start_date_text kwargs) = Raise e ->
  next env (Created kwargs) self w = (Raise e, Exhausted, self, w).
Proof.
  intros Htext Hperiod.
  unfold next, resume, and_then. rewrite enter_unfold.
  apply String.eqb_neq in Htext. rewrite Htext.
  unfold _start_days_till_now. now rewrite Hperiod.
Qed.

Lemma unreadable_start_date_raises_before_any_request_witness :
  next quiet (Created [("start_date", ArgNone)])
       (logged_in (Some (JInt 60)) None) session_world =
    (Raise (ValueError InvalidIntLiteral), Exhausted,
     logged_in (Some (JInt 60)) None, session_world).
Proof.
  apply (unreadable_start_date_raises_before_any_request
           quiet [("start_date", ArgNone)]).
  - discriminate.
  - reflexivity.
Defined.

(** X4: a start date after the UTC day of now enumerates no day: the first
    [next] ends the iteration at once and no request is issued. *)
Theorem future_start_date_yields_nothing env kwargs self w period :
  start_period (start_date_text kwargs) = Ok period ->
  ordinal_of (utcnow env (clock w)) < period ->
  next env (Created kwargs) self w = (Ok None, Exhausted, self, w).
Proof.
  intros Hperiod Hfuture.
  unfold next, resume, and_then. rewrite enter_unfold.
  destruct (String.eqb (start_date_text kwargs) "") eqn:Htext.
  { apply String.eqb_eq in Htext. rewrite Htext, start_period_empty in Hperiod.
    discriminate. }
  unfold _start_days_till_now. rewrite Hperiod. simpl.
  assert (Hnone : rrule_daily period (utcnow env (clock w)) = []).
  { unfold rrule_daily, ordinal_of, midnight in *.
    set (until := utcnow env (clock w)) in *.
    pose proof (Z.div_mod until 86400 ltac:(lia)) as Hdiv.
    pose proof (Z.mod_pos_bound until 86400 ltac:(lia)) as Hmod.
    replace ((period - EPOCH_ORDINAL) * 86400 <=? Z.min until MAX_MIDNIGHT)
      with false; [reflexivity|].
    symmetry. apply Z.leb_gt. lia. }
  rewrite Hnone. reflexivity.
Qed.

Lemma future_start_date_yields_nothing_witness :
  next quiet (Created [("start_date", ArgStr "2020-01-04")])
       (logged_in (Some (JInt 60)) None) session_world =
    (Ok None, Exhausted, logged_in (Some (JInt 60)) None, session_world).
Proof.
  apply (future_start_date_yields_nothing
           quiet [("start_date", ArgStr "2020-01-04")] _ _ 737428).
  - reflexivity.
  - vm_compute. reflexivity.
Defined.

(** ** The request of a day *)

Lemma append_empty s : s ++ "" = s.
Proof.
  induction s as [|c s IH]; [reflexivity|].
  change (String c (s ++ "") = String c s). now f_equal.
Qed.

(** A stretch of text without the first character of [old] is copied. *)
Lemma replace_from_lacking head tail new text rest :
  lacks head text = true ->
  replace_from (String head tail) new (text ++ rest) 0 =
    text ++ replace_from (String head tail) new rest 0.
Proof.
  induction text as [|c text IH]; intros H; [reflexivity|].
  simpl in H. apply andb_true_iff in H. destruct H as [Hc Htext].
  apply negb_true_iff in Hc.
  change (String c text ++ rest) with (String c (text ++ rest)).
  change (String c text ++ replace_from (String head tail) new rest 0)
    with (String c (text ++ replace_from (String head tail) new rest 0)).
  cbn [replace_from String.prefix].
  destruct (ascii_dec head c) as [->|_].
  - now rewrite Ascii.eqb_refl in Hc.
  - now rewrite (IH Htext).
Qed.

Lemma digits_lack_colon s : all_digits s = true -> lacks ":" s = true.
Proof.
  induction s as [|c s IH]; simpl; intros H; [reflexivity|].
  apply andb_true_iff in H. destruct H as [Hc Hs]. rewrite (IH Hs), andb_true_r.
  apply negb_true_iff. destruct (Ascii.eqb_spec c ":") as [->|]; [discriminate|reflexivity].
Qed.

Lemma py_str_lacks_colon n : lacks ":" (py_str n) = true.
Proof.
  unfold py_str. destruct n as [|p|p]; [reflexivity| |]; simpl;
    pose proof (DecimalPos.Unsigned.to_uint_nonnil p) as Hnil;
    rewrite (string_of_uint_nonnil _ Hnil);
    apply digits_lack_colon, string_of_uint_digits.
Qed.

(** X2: the request of a day asks for the window that starts at the day's
    epoch second and ends 86400 seconds later: the window is read back from
    the printed second, and the two placeholders of the path are replaced by
    the start and the end, each once and in that order. *)
Theorem day_request_asks_for_the_window self start :
  day_window (py_str start) = Ok (start, start + 86400) /\
  url (day_request self (py_str start) (start + 86400)) =
    "https://in.coosto.com/api/1/engagementstats/get_intervention_details"
    ++ "/?since=" ++ py_str start ++ "&until=" ++ py_str (start + 86400).
Proof.
  split; [unfold day_window; now rewrite py_int_py_str|].
  unfold day_request, day_url, replace. simpl url.
  generalize (py_str (start + 86400)). intros until_text.
  pose proof (py_str_lacks_colon start) as Hcolon.
  generalize dependent (py_str start). intros since_text Hcolon.
  rewrite (replace_from_lacking ":" "end_date:" until_text since_text _ Hcolon).
  change (replace_from ":end_date:" until_text "&until=:end_date:" 0)
    with ("&until=" ++ (until_text ++ "")).
  rewrite append_empty. reflexivity.
Qed.

(** ** The constructor *)

Lemma error_status_raises resp :
  ~ 200 <= status_code resp <= 299 ->
  raise_for_status resp = Raise HTTPStatusError.
Proof.
  intros Hstatus. unfold raise_for_status.
  destruct ((200 <=? status_code resp) && (status_code resp <=? 299)) eqn:E;
    [|reflexivity].
  apply andb_true_iff in E. destruct E as [E1 E2].
  apply Z.leb_le in E1, E2. lia.
Qed.

(** X8: when the login is answered with a status outside 2xx, the
    constructor raises the status error and stops: the login is the only
    request it has issued, the rate limit is never asked for. *)
Theorem rejected_login_stops_the_constructor env user pass w resp :
  answer (server env (List.length (sent w)) (login_request (blank user pass)))
    = Some resp ->
  ~ 200 <= status_code resp <= 299 ->
  __init__ env user pass w =
    (Raise HTTPStatusError,
     {| clock := clock w
                 + latency (server env (List.length (sent w))
                                   (login_request (blank user pass)));
        sent := sent w ++ [(clock w, login_request (blank user pass))] |}).
Proof.
  intros Hresp Hstatus.
  rewrite init_unfold, login_unfold. simpl. rewrite Hresp.
  unfold login_token. now rewrite (error_status_raises resp Hstatus).
Qed.

Lemma rejected_login_stops_the_constructor_witness :
  exists w1,
    __init__ (scenario (JBool true) (JInt 60) 401 JNull ∅)
             "user" "secret"
             {| clock := 5; sent := [(0%Q, login_request (blank "a" "b"));
                                     (1%Q, login_request (blank "c" "d"))] |} =
      (Raise HTTPStatusError, w1) /\
    List.length (sent w1) = 3%nat.
Proof.
  eexists. split.
  - apply (rejected_login_stops_the_constructor
             (scenario (JBool true) (JInt 60) 401 JNull ∅) "user" "secret"
             {| clock := 5; sent := [(0%Q, login_request (blank "a" "b"));
                                     (1%Q, login_request (blank "c" "d"))] |}
             {| status_code := 401; body := Some JNull |}).
    + reflexivity.
    + simpl. lia.
  - reflexivity.
Defined.

(** X9: the session token of the login response is the cookie of every
    later request: a client that was built holds it as its only cookie, has
    sent it with the rate-limit request, and sends it with the request of
    every day. *)
Theorem session_cookie_travels env user pass w self w1 resp sessionid :
  __init__ env user pass w = (Ok self, w1) ->
  answer (server env (List.length (sent w)) (login_request (blank user pass)))
    = Some resp ->
  login_token resp = Ok sessionid ->
  cookies self = [("sessionid", sessionid)] /\
  (exists t1 t2,
     sent w1 =
       (sent w ++ [(t1, login_request (blank user pass));
                   (t2, {| method := GET;
                           url := BASE_URL ++ ENDPOINT_RATE_LIMIT;
                           form := [];
                           sent_cookies := [("sessionid", sessionid)] |})])%list) /\
  forall date_day end_of_day,
    sent_cookies (day_request self date_day end_of_day)
      = [("sessionid", sessionid)].
Proof.
  intros Hinit Hresp Htoken.
  destruct (init_inversion _ _ _ _ _ _ Hinit)
    as (resp1 & sid & _ & _ & _ & Hresp1 & Htoken1 & Hcookies & _).
  assert (resp1 = resp) by congruence. subst resp1.
  assert (sid = sessionid) by congruence. subst sid.
  split; [exact Hcookies|]. split.
  - destruct (init_requests _ _ _ _ _ _ Hinit) as (t1 & t2 & Hsent & _).
    exists t1, t2. rewrite Hsent. unfold rate_limit_request. now rewrite Hcookies.
  - intros date_day end_of_day. exact Hcookies.
Qed.

Lemma session_cookie_travels_witness :
  exists self w1,
    __init__ quiet "user" "secret" fresh_world = (Ok self, w1) /\
    cookies self = [("sessionid", JStr "abc")] /\
    sent_cookies (day_request self "1577836800" 1577923200)
      = [("sessionid", JStr "abc")].
Proof.
  eexists _, _. split; [reflexivity|].
  destruct (session_cookie_travels quiet "user" "secret" fresh_world _ _
              {| status_code := 200;
                 body := Some (JObj [("data", JObj [("sessionid", JStr "abc")])]) |}
              (JStr "abc") eq_refl eq_refl eq_refl) as (Hcookies & _ & Hday).
  split; [exact Hcookies|apply Hday].
Defined.

(** X10: when the rate-limit response reports [enabled] as true, a client
    that was built has recorded the [max_requests] of the response, or
    [None] when the response has none, and no next-request time yet. *)
Theorem enabled_rate_limit_is_recorded
    env user pass w self w1 resp rate_dict enabled :
  __init__ env user pass w = (Ok self, w1) ->
  answer (server env (S (List.length (sent w))) (rate_limit_request self))
    = Some resp ->
  rate_limit_data resp = Ok rate_dict ->
  py_get rate_dict "enabled" JNull = Ok enabled ->
  py_truthy enabled = true ->
  exists limit,
    py_get rate_dict "max_requests" JNull = Ok limit /\
    max_requests self = Some limit /\
    next_request self = None.
Proof.
  intros Hinit Hanswer Hdata Henabled Htrue.
  destruct (init_inversion _ _ _ _ _ _ Hinit)
    as (resp1 & sid & resp2 & rate_dict2 & enabled2
        & _ & _ & _ & Hanswer2 & Hdata2 & Henabled2 & Hmax & Hnext).
  assert (resp2 = resp) by congruence. subst resp2.
  assert (rate_dict2 = rate_dict) by congruence. subst rate_dict2.
  assert (enabled2 = enabled) by congruence. subst enabled2.
  rewrite Htrue in Hmax.
  destruct rate_dict; try discriminate Henabled.
  simpl in *. destruct (assoc_get fields "max_requests") as [limit|];
    eexists; repeat split; eassumption.
Qed.

Lemma enabled_rate_limit_is_recorded_witness :
  exists self w1,
    __init__ quiet "user" "secret" fresh_world = (Ok self, w1) /\
    max_requests self = Some (JInt 60).
Proof.
  eexists _, _. split; [reflexivity|].
  destruct (enabled_rate_limit_is_recorded quiet "user" "secret" fresh_world
              _ _ _ _ _ eq_refl eq_refl eq_refl eq_refl eq_refl)
    as (limit & Hget & Hmax & _).
  rewrite Hmax. f_equal. simpl in Hget. now injection Hget as <-.
Defined.



(** ** A rate limit that cannot be divided by *)

(** X11: when the recorded [max_requests] is 0, [False], [None] or not a
    number, the day's request is still issued, but the step raises when it
    divides, a ZeroDivisionError or a TypeError, before the response is
    looked at, and records no next-request time. *)
Theorem unusable_rate_limit_fails_the_day
    env date_day start self w limit e resp :
  py_int date_day = Ok start ->
  max_requests self = Some limit ->
  sixty_over limit = Raise e ->
  answer (server env (List.length (sent w))
                 (day_request self date_day (start + 86400))) = Some resp ->
  (e = ZeroDivisionError \/ e = TypeError) /\
  fetch_day env date_day self w =
    (Raise e, self,
     {| clock := clock (paced self w)
                 + latency (server env (List.length (sent w))
                                   (day_request self date_day (start + 86400)));
        sent := sent w ++ [(clock (paced self w),
                            day_request self date_day (start + 86400))] |}).
Proof.
  intros Hint Hmax Hdivide Hresp. split.
  - destruct limit as [|[]|n| | |]; simpl in Hdivide;
      try (injection Hdivide as <-; auto; fail); try discriminate.
    destruct (n =? 0); [injection Hdivide as <-; auto|discriminate].
  - rewrite (fetch_day_unfold env date_day start self w Hint). simpl.
    rewrite Hresp, Hmax, Hdivide. unfold answered. now rewrite sent_paced.
Qed.

Lemma unusable_rate_limit_fails_the_day_witness :
  exists w1,
    fetch_day quiet "1577836800" (logged_in (Some (JInt 0)) None) session_world =
      (Raise ZeroDivisionError, logged_in (Some (JInt 0)) None, w1) /\
    List.length (sent w1) = 3%nat.
Proof.
  destruct (unusable_rate_limit_fails_the_day
              quiet "1577836800" 1577836800 (logged_in (Some (JInt 0)) None)
              session_world (JInt 0) ZeroDivisionError
              {| status_code := 200; body := Some (JObj [("data", JArr [])]) |}
              eq_refl eq_refl eq_refl eq_refl) as [_ Hfetch].
  eexists. split; [exact Hfetch|reflexivity].
Defined.

(** ** The end of a run *)




(** ** The rows of a day *)

(** X12: the rows of a fetched day are cleaned and yielded one per call of
    [next], in the order of the response, without any request and without
    touching the object: the cleaner is applied to a row only when that row
    is asked for.  When the cleaner raises on a row, the rows before it have
    been yielded, and the generator is over. *)
Theorem rows_are_cleaned_one_by_one
    env f clean days before row after self w :
  Forall (fun r => f r = Ok (clean r)) before ->
  take env (S (List.length before))
       (Suspended (PyFunc f) (before ++ row :: after) days) self w =
    ((map (fun r => Ok (Some (clean r))) before
      ++ [match f row with
          | Ok cleaned => Ok (Some cleaned)
          | Raise e => Raise e
          end])%list,
     match f row with
     | Ok _ => Suspended (PyFunc f) after days
     | Raise _ => Exhausted
     end,
     self, w).
Proof.
  induction 1 as [|r before Hr _ IH].
  - simpl. unfold next, resume, yield_from, and_then, lift, ret. simpl.
    destruct (f row); reflexivity.
  - change (take env (S (List.length (r :: before)))
              (Suspended (PyFunc f) ((r :: before) ++ row :: after) days) self w)
      with (let '(r1, g1, self1, w1) :=
              next env (Suspended (PyFunc f) (r :: (before ++ row :: after)) days)
                   self w in
            let '(rs, g2, self2, w2) :=
              take env (S (List.length before)) g1 self1 w1 in
            (r1 :: rs, g2, self2, w2)).
    unfold next at 1, resume, yield_from, and_then, lift, ret. simpl call.
    rewrite Hr, IH. reflexivity.
Qed.

Lemma rows_are_cleaned_one_by_one_witness :
  take quiet 3
       (Suspended (PyFunc only_objects)
                  [JObj [("id", JInt 1)]; JObj [("id", JInt 2)]; JInt 3; JObj []]
                  ["1577923200"])
       (logged_in (Some (JInt 60)) None) session_world =
    ([Ok (Some (JObj [("id", JInt 1)])); Ok (Some (JObj [("id", JInt 2)]));
      Raise AttributeError],
     Exhausted, logged_in (Some (JInt 60)) None, session_world).
Proof.
  apply (rows_are_cleaned_one_by_one
           quiet only_objects (fun r => r) ["1577923200"]
           [JObj [("id", JInt 1)]; JObj [("id", JInt 2)]] (JInt 3) [JObj []]).
  repeat constructor.
Defined.

(** ** One request per day, in order *)

(** Whatever a day step does, it issues the request of its day and leaves
    the cookies alone. *)
Lemma fetch_day_request env date_day start self w r self' w' :
  py_int date_day = Ok start ->
  fetch_day env date_day self w = (r, self', w') ->
  cookies self' = cookies self /\
  sent w' = (sent w ++ [(clock (paced self w),
                         day_request self date_day (start + 86400))])%list.
Proof.
  intros Hint Hfetch.
  rewrite (fetch_day_unfold env date_day start self w Hint) in Hfetch.
  simpl in Hfetch.
  assert (Hsent : sent (answered env (day_request self date_day (start + 86400))
                                 (paced self w)) =
                  (sent w ++ [(clock (paced self w),
                               day_request self date_day (start + 86400))])%list)
    by (unfold answered; simpl; now rewrite sent_paced).
  destruct (answer _); [|injection Hfetch as _ <- <-; auto].
  destruct (max_requests self) as [limit|]; [|injection Hfetch as _ <- <-; auto].
  destruct (sixty_over limit); injection Hfetch as _ <- <-; auto.
Qed.

Lemma requests_since_snoc base w w' t r :
  (base <= List.length (sent w))%nat ->
  sent w' = (sent w ++ [(t, r)])%list ->
  requests_since base w' = (requests_since base w ++ [r])%list /\
  (base <= List.length (sent w'))%nat.
Proof.
  intros Hbase Hsent. unfold requests_since. rewrite Hsent. split.
  - rewrite skipn_app.
    replace (base - List.length (sent w))%nat with 0%nat by lia.
    simpl. now rewrite map_app.
  - rewrite length_app. simpl. lia.
Qed.

(** The rule yields the first midnights from the start day, however many. *)
Lemma rrule_daily_from_period period until :
  exists m,
    rrule_daily period until =
      map (fun i => midnight (period + Z.of_nat i)) (seq 0 m).
Proof.
  unfold rrule_daily. destruct (_ <=? _).
  - eexists. apply map_ext. intros i. apply midnight_plus.
  - now exists 0%nat.
Qed.

Section OnePerDay.

Variable env : Env.
Variable kwargs : list (string * pyarg).
Variable self0 : Coosto.
Variable period : Z.
Variable base : nat.

Lemma day_loop_one_per_day cleaner m :
  forall k self w r self' w',
    cookies self = cookies self0 ->
    (base <= List.length (sent w))%nat ->
    requests_since base w = map (day_request_at env self0 period) (seq 0 k) ->
    day_loop env cleaner
             (map (fun i => py_str (day_start env period i)) (seq k m)) self w
      = (r, self', w') ->
    one_per_day env kwargs self0 period base
      (match r with Ok (_, g') => g' | Raise _ => Exhausted end, self', w').
Proof.
  induction m as [|m IH]; intros k self w r self' w' Hcookies Hbase Hsince Hloop.
  - simpl in Hloop. unfold ret in Hloop. injection Hloop as <- <- <-.
    repeat split; simpl; try assumption. now exists k.
  - simpl in Hloop. unfold and_then in Hloop.
    destruct (fetch_day env (py_str (day_start env period k)) self w)
      as [[fetched self1] w1] eqn:Hfetch.
    destruct (fetch_day_request env _ _ self w fetched self1 w1
                (py_int_py_str _) Hfetch) as [Hcookies1 Hsent1].
    destruct (requests_since_snoc base w w1 _ _ Hbase Hsent1) as [Hsince1 Hbase1].
    assert (Hnext : requests_since base w1 =
                    map (day_request_at env self0 period) (seq 0 (S k))).
    { rewrite Hsince1, Hsince, seq_S, map_app. simpl. do 2 f_equal.
      unfold day_request_at, day_request. now rewrite Hcookies. }
    assert (Hcookies1' : cookies self1 = cookies self0) by congruence.
    assert (Hover : one_per_day env kwargs self0 period base (Exhausted, self1, w1)).
    { repeat split; simpl; try assumption. now exists (S k). }
    destruct fetched as [rows|e].
    + destruct rows as [|row rows]; simpl in Hloop.
      * exact (IH (S k) self1 w1 _ _ _ Hcookies1' Hbase1 Hnext Hloop).
      * unfold and_then, lift, ret in Hloop.
        destruct (call cleaner row); injection Hloop as <- <- <-; [|exact Hover].
        repeat split; simpl; try assumption.
        exists (S k). split; [exact Hnext|]. now exists m.
    + injection Hloop as <- <- <-. exact Hover.
Qed.

Hypothesis period_read : start_period (start_date_text kwargs) = Ok period.

Lemma next_one_per_day g self w r g' self' w' :
  one_per_day env kwargs self0 period base (g, self, w) ->
  next env g self w = (r, g', self', w') ->
  one_per_day env kwargs self0 period base (g', self', w').
Proof.
  intros (Hcookies & Hbase & k & Hsince & Hstate) Hnext. simpl in *.
  unfold next in Hnext.
  destruct (resume env g self w) as [[resumed self1] w1] eqn:Hresume.
  assert (Hgoal : one_per_day env kwargs self0 period base
            (match resumed with Ok (_, g1) => g1 | Raise _ => Exhausted end,
             self1, w1)).
  { destruct g as [kwargs'|cleaner rows days|]; simpl in Hresume.
    - destruct Hstate as [-> ->].
      unfold and_then in Hresume. rewrite enter_unfold in Hresume.
      destruct (String.eqb (start_date_text kwargs) "") eqn:Htext.
      { apply String.eqb_eq in Htext.
        rewrite Htext, start_period_empty in period_read. discriminate. }
      unfold _start_days_till_now in Hresume. rewrite period_read in Hresume.
      simpl in Hresume.
      destruct (rrule_daily_from_period period (utcnow env (clock w))) as [m Hm].
      rewrite Hm, map_map in Hresume.
      exact (day_loop_one_per_day _ m 0%nat self w _ _ _
               Hcookies Hbase Hsince Hresume).
    - destruct Hstate as [m ->].
      destruct rows as [|row rows]; simpl in Hresume.
      + exact (day_loop_one_per_day cleaner m k self w _ _ _
                 Hcookies Hbase Hsince Hresume).
      + unfold and_then, lift, ret in Hresume.
        destruct (call cleaner row); injection Hresume as <- <- <-;
          repeat split; simpl; try assumption; exists k; split; auto.
        now exists m.
    - unfold ret in Hresume. injection Hresume as <- <- <-.
      repeat split; simpl; try assumption. now exists k. }
  destruct resumed as [[item g1]|e]; injection Hnext as _ <- <- <-; exact Hgoal.
Qed.

Lemma reaches_one_per_day c c' :
  reaches env c c' ->
  one_per_day env kwargs self0 period base c ->
  one_per_day env kwargs self0 period base c'.
Proof.
  induction 1 as [c|g self w r g' self' w' c Hnext _ IH|g self w dt c Hdt _ IH];
    intros Hinv.
  - exact Hinv.
  - apply IH. exact (next_one_per_day g self w r g' self' w' Hinv Hnext).
  - apply IH. exact Hinv.
Qed.

End OnePerDay.

(** X1: in every run of the generator, however the consumer drives it, the
    requests issued are those of the first days from the start day, one
    request per day and in ascending order of the days, each for the window
    of its day and with the cookies of the client. *)
Theorem run_requests_one_per_day_in_order
    env kwargs self w g self' w' period :
  start_period (start_date_text kwargs) = Ok period ->
  reaches env (Created kwargs, self, w) (g, self', w') ->
  exists k,
    requests_since (List.length (sent w)) w' =
      map (day_request_at env self period) (seq 0 k).
Proof.
  intros Hperiod Hrun.
  assert (Hstart : one_per_day env kwargs self period (List.length (sent w))
                     (Created kwargs, self, w)).
  { unfold one_per_day, requests_since. simpl. rewrite skipn_all.
    repeat split; try lia. now exists 0%nat. }
  destruct (reaches_one_per_day env kwargs self period _ Hperiod _ _ Hrun Hstart)
    as (_ & _ & k & Hsince & _).
  now exists k.
Qed.

Lemma run_requests_one_per_day_in_order_witness :
  map url (requests_since 2 (snd quiet_run)) =
    ["https://in.coosto.com/api/1/engagementstats/get_intervention_details/?since=1577836800&until=1577923200";
     "https://in.coosto.com/api/1/engagementstats/get_intervention_details/?since=1577923200&until=1578009600";
     "https://in.coosto.com/api/1/engagementstats/get_intervention_details/?since=1578009600&until=1578096000"] /\
  exists k,
    requests_since 2 (snd quiet_run) =
      map (day_request_at quiet (logged_in (Some (JInt 60)) None) 737425) (seq 0 k).
Proof.
  split; [vm_compute; reflexivity|].
  apply (run_requests_one_per_day_in_order
           quiet [("start_date", ArgStr "2020-01-01")]
           (logged_in (Some (JInt 60)) None) session_world
           (snd (fst (fst quiet_run))) (snd (fst quiet_run)) (snd quiet_run)
           737425 eq_refl).
  apply (reaches_next quiet (Created [("start_date", ArgStr "2020-01-01")])
           (logged_in (Some (JInt 60)) None) session_world
           (fst (fst (fst quiet_run))) (snd (fst (fst quiet_run)))
           (snd (fst quiet_run)) (snd quiet_run)).
  - reflexivity.
  - apply reaches_here.
Defined.

(** ** A run over days without rows *)




(** ** Responses with missing or null [data] *)

Lemma success_status_passes resp :
  200 <= status_code resp <= 299 -> raise_for_status resp = Ok tt.
Proof.
  intros Hstatus. unfold raise_for_status.
  replace ((200 <=? status_code resp) && (status_code resp <=? 299)) with true;
    [reflexivity|].
  symmetry. apply andb_true_iff. split; apply Z.leb_le; lia.
Qed.



(** X16: the default of [.get('data', {})] in the login covers an absent
    key only.  A 2xx login response whose [data] is null, or anything else
    that is not an object, raises an AttributeError when the session token
    is read from it; the object keeps its empty cookies. *)
Theorem login_data_must_be_an_object env self w resp fields data :
  answer (server env (List.length (sent w)) (login_request self)) = Some resp ->
  200 <= status_code resp <= 299 ->
  body resp = Some (JObj fields) ->
  assoc_get fields "data" = Some data ->
  (forall data_fields, data <> JObj data_fields) ->
  _login env self w =
    (Raise AttributeError, self,
     {| clock := clock w
                 + latency (server env (List.length (sent w)) (login_request self));
        sent := sent w ++ [(clock w, login_request self)] |}).
Proof.
  intros Hresp Hstatus Hbody Hdata Hobject.
  rewrite login_unfold. simpl. rewrite Hresp.
  unfold login_token, response_json.
  rewrite (success_status_passes resp Hstatus), Hbody. simpl. rewrite Hdata.
  simpl. destruct data; try reflexivity. now destruct (Hobject fields0).
Qed.

Lemma login_data_must_be_an_object_witness :
  exists w1,
    _login null_login_data (blank "user" "secret") fresh_world =
      (Raise AttributeError, blank "user" "secret", w1).
Proof.
  eexists.
  apply (login_data_must_be_an_object
           null_login_data (blank "user" "secret") fresh_world
           {| status_code := 200; body := Some (JObj [("data", JNull)]) |}
           [("data", JNull)] JNull);
    try reflexivity.
  - simpl. lia.
  - discriminate.
Defined.
